(** * The demo views of the debug-toolbar performance reproduction

    A shallow embedding of [demo/views.py] (the views [index] and
    [slow_query]), of the [Item] model of [demo/models.py], of the URL
    configuration of [config/urls.py], and of the Python and Django
    operations they call: [int], [range], [uuid.uuid4],
    [time.perf_counter], [QueryDict.get], the
    [Item.objects.filter(id__in=...)] query and the matching of [path()]
    patterns.

    The program formats no SQL itself: the slow formatting it demonstrates
    happens in the SQL panel of django-debug-toolbar, which is no part of
    these files. *)

From Stdlib Require Import ZArith NArith Ascii String List Bool Lia.
From stdpp Require Import base gmap strings list pretty.

Local Open Scope Z_scope.

(** ** Python values and the builtin [int] *)

Module Py.

(** A [str]: its code points, in order. *)
Definition str : Type := list N.

(** The [str] of an ASCII literal of the source. *)
Definition str_of (s : string) : str :=
  map N_of_ascii (list_ascii_of_string s).

(** What [request.GET.get('count', 1000)] can evaluate to: a [str] taken
    from the query string, or the [int] default. *)
Inductive value : Type :=
| VStr (s : str)
| VInt (n : Z).

(** The exceptions a run of the views can end in: [ValueError] from [int],
    and [django.db.utils.OperationalError] from the database. *)
Inductive exn : Type :=
| ValueError
| OperationalError.

(** The code points for which [str.isspace] holds (Unicode 14.0). *)
Definition unicode_spaces : list N :=
  [9; 10; 11; 12; 13; 28; 29; 30; 31; 32; 133; 160; 5760;
   8192; 8193; 8194; 8195; 8196; 8197; 8198; 8199; 8200; 8201; 8202;
   8232; 8233; 8239; 8287; 12288]%N.

(** The decimal digits of Unicode 14.0 come in runs of ten, from the digit
    zero to the digit nine of a script; these are the code points of the
    zeros. *)
Definition unicode_decimal_zeros : list N :=
  [48; 1632; 1776; 1984; 2406; 2534; 2662; 2790; 2918; 3046; 3174; 3302;
   3430; 3558; 3664; 3792; 3872; 4160; 4240; 6112; 6160; 6470; 6608; 6784;
   6800; 6992; 7088; 7232; 7248; 42528; 43216; 43264; 43472; 43504; 43600;
   44016; 65296; 66720; 68912; 69734; 69872; 69942; 70096; 70384; 70736;
   70864; 71248; 71360; 71472; 71904; 72016; 72784; 73040; 73120; 92768;
   92864; 93008; 120782; 120792; 120802; 120812; 120822; 123200; 123632;
   125264; 130032]%N.

Definition Py_UNICODE_ISSPACE (c : N) : bool :=
  existsb (N.eqb c) unicode_spaces.

Definition Py_UNICODE_TODECIMAL (c : N) : option N :=
  match find (fun z => (z <=? c) && (c <? z + 10))%N unicode_decimal_zeros with
  | Some z => Some (c - z)%N
  | None => None
  end.

(** Before it parses a [str], [int] turns every code point from 127 on
    into ASCII: a Unicode space into a space, a Unicode decimal digit into
    the ASCII digit of its value, anything else into a question mark (which
    no literal contains). *)
Definition to_ascii (c : N) : N :=
  if (c <? 127)%N then c
  else if Py_UNICODE_ISSPACE c then 32%N
  else match Py_UNICODE_TODECIMAL c with
       | Some d => (48 + d)%N
       | None => 63%N
       end.

(** The C white space (tab, line feed, vertical tab, form feed, carriage
    return, space) after the conversion: the separators U+001C to U+001F
    are below 127, stay as they are, and are not skipped. *)
Definition is_space (c : N) : bool :=
  let n := to_ascii c in
  (((9 <=? n) && (n <=? 13)) || (n =? 32))%N.

Definition digit_value (c : N) : option Z :=
  let n := to_ascii c in
  if ((48 <=? n) && (n <=? 57))%N then Some (Z.of_N (n - 48)) else None.

Definition is_digit (c : N) : bool :=
  match digit_value c with Some _ => true | None => false end.

Definition is_underscore (c : N) : bool := (to_ascii c =? 95)%N.

Definition is_plus (c : N) : bool := (to_ascii c =? 43)%N.

Definition is_minus (c : N) : bool := (to_ascii c =? 45)%N.

(** [sys.int_info.default_max_str_digits] *)
Definition int_max_str_digits : nat := 4300.

Fixpoint skip_spaces (s : str) : str :=
  match s with
  | c :: r => if is_space c then skip_spaces r else s
  | [] => s
  end.

Definition take_sign (s : str) : Z * str :=
  match s with
  | c :: r =>
      if is_plus c then (1, r)
      else if is_minus c then (-1, r)
      else (1, s)
  | [] => (1, s)
  end.

Record scanned : Type := Scanned {
  sc_value : Z;         (* value of the digits read so far *)
  sc_digits : nat;      (* how many digits were read *)
  sc_prev : bool;       (* was the last character read an underscore? *)
  sc_rest : str         (* what follows the digits *)
}.

(** The digit loop: digits and single underscores are consumed; two
    underscores in a row are refused at once. *)
Fixpoint scan_digits (s : str) (prev_us : bool) (acc : Z) (digits : nat)
  : option scanned :=
  match s with
  | c :: r =>
      if is_underscore c then
        if prev_us then None else scan_digits r true acc digits
      else
        match digit_value c with
        | Some d => scan_digits r false (acc * 10 + d) (S digits)
        | None => Some (Scanned acc digits prev_us s)
        end
  | [] => Some (Scanned acc digits prev_us s)
  end.

Definition starts_with_underscore (s : str) : bool :=
  match s with
  | c :: _ => is_underscore c
  | [] => false
  end.

Definition is_empty (s : str) : bool :=
  match s with
  | [] => true
  | _ :: _ => false
  end.

(** [int(s)] for a [str] in base 10; [None] stands for [ValueError]. *)
Definition int_of_str (s : str) : option Z :=
  let (sign, body) := take_sign (skip_spaces s) in
  if starts_with_underscore body then None
  else
    match scan_digits body false 0 0 with
    | None => None
    | Some sc =>
        if sc_prev sc then None
        else if (sc_digits sc =? 0)%nat then None
        else if (int_max_str_digits <? sc_digits sc)%nat then None
        else if is_empty (skip_spaces (sc_rest sc))
             then Some (sign * sc_value sc)
             else None
    end.

(** [int(x)]: an [int] is returned as it is, a [str] is parsed. *)
Definition int (v : value) : exn + Z :=
  match v with
  | VInt n => inr n
  | VStr s =>
      match int_of_str s with
      | Some n => inr n
      | None => inl ValueError
      end
  end.

(** [range(n)] *)
Definition range (n : Z) : list Z :=
  map Z.of_nat (seq 0 (Z.to_nat n)).

End Py.

(** ** The literals [int] accepts *)

Module IntLiteral.
Import Py.

(** White space only. *)
Inductive all_spaces : str -> Prop :=
| spaces_nil : all_spaces []
| spaces_cons c r : is_space c = true -> all_spaces r -> all_spaces (c :: r).

(** What may follow a digit: nothing, a digit, or one underscore and a
    digit. *)
Inductive digit_tail : str -> Prop :=
| tail_nil : digit_tail []
| tail_digit c r :
    is_digit c = true -> digit_tail r -> digit_tail (c :: r)
| tail_underscore u c r :
    is_underscore u = true -> is_digit c = true -> digit_tail r ->
    digit_tail (u :: c :: r).

(** Digits with single underscores between them. *)
Inductive digit_groups : str -> Prop :=
| groups_intro c r :
    is_digit c = true -> digit_tail r -> digit_groups (c :: r).

(** No sign, a plus or a minus. *)
Inductive sign_prefix : str -> Prop :=
| sign_none : sign_prefix []
| sign_plus : sign_prefix (str_of "+")
| sign_minus : sign_prefix (str_of "-").

(** A decimal integer string: white space, an optional sign, digits with
    single underscores between them, white space.  White space and digits
    are those of Unicode. *)
Definition decimal_integer_literal (s : str) : Prop :=
  exists l sg b r,
    s = l ++ sg ++ b ++ r /\
    all_spaces l /\ sign_prefix sg /\ digit_groups b /\ all_spaces r.

End IntLiteral.
(** ** Text helpers *)

Module Text.

(** The line feed and the double quote, which the HTML pages contain. *)
Definition nl : string := String (ascii_of_nat 10) EmptyString.
Definition dq : string := String (ascii_of_nat 34) EmptyString.

(** A triple-quoted block, given line by line. *)
Definition lines (l : list string) : string := String.concat nl l.

(** The page has this line, between line feeds (or at an end). *)
Definition has_line (page line : string) : Prop :=
  exists before after : list string, page = lines (before ++ line :: after).

(** Digits in reverse order with a comma after every third one. *)
Fixpoint group3 (l : list ascii) (k : nat) : list ascii :=
  match l with
  | [] => []
  | c :: r =>
      match k with
      | O => ","%char :: c :: group3 r 2
      | S k' => c :: group3 r k'
      end
  end.

(** [format(n, ',')] for an [int]. *)
Definition format_thousands (n : Z) : string :=
  let digits := list_ascii_of_string (pretty (Z.abs n)) in
  let grouped := string_of_list_ascii (rev (group3 (rev digits) 3)) in
  if n <? 0 then "-" +:+ grouped else grouped.

End Text.

(** ** Django: requests, responses and the [Item] model *)

Module Django.

(** [django.http.QueryDict]: every key maps to the list of the values
    given for it. *)
Abbreviation QueryDict := (gmap Py.str (list Py.str)).

(** [QueryDict.get(key, default)]: the last value of the key; the default
    when the key is missing or its list is empty. *)
Definition QueryDict_get (d : QueryDict) (key : Py.str) (default : Py.value)
  : Py.value :=
  match d !! key with
  | None => default
  | Some vs =>
      match last vs with
      | Some v => Py.VStr v
      | None => default
      end
  end.

(** The parts of a request; [body] is the raw bytes. *)
Record HttpRequest : Type := {
  method : Py.str;
  path : Py.str;
  GET : gmap Py.str (list Py.str);
  POST : gmap Py.str (list Py.str);
  COOKIES : gmap Py.str Py.str;
  META : gmap Py.str Py.str;
  body : string
}.

(** [HttpResponse(content)]: status 200 and the default content type. *)
Record HttpResponse : Type := {
  content : string;
  status_code : Z;
  content_type : string
}.

Definition HttpResponse_of (html : string) : HttpResponse :=
  {| content := html; status_code := 200;
     content_type := "text/html; charset=utf-8" |}.

Definition UUID : Type := N.

(** [demo.models.Item] *)
Record Item : Type := {
  id : UUID;
  name : Py.str;
  created_at : Z
}.

(** [Item.__str__] *)
Definition Item_str (self : Item) : Py.str := name self.

(** A lookup evaluated on [Item.objects]. *)
Inductive Lookup : Type :=
| FilterIdIn (ids : list UUID).

End Django.

(** ** The views *)

Module Views.
Import Django.

Section WithClock.

(** A reading of [time.perf_counter()].  The only thing done with two
    readings is to print [(stop - start) * 1000] with two decimals;
    that rendering is [format_ms stop start]. *)
Variable float : Type.
Variable format_ms : float -> float -> string.

(** What a view can observe and change outside itself. *)
Record World : Type := {
  uuid_stream : nat -> UUID;    (* what the n-th [uuid.uuid4()] returns *)
  uuid_calls : nat;             (* calls of [uuid.uuid4()] made so far *)
  clock : nat -> float;         (* the n-th reading of the clock *)
  clock_reads : nat;            (* readings made so far *)
  items_table : list Item;      (* the rows of the [Item] table, in the
                                   order the database gives them *)
  max_variables : Z;            (* most values the database takes in one
                                   statement *)
  lookups : list Lookup         (* lookups evaluated, oldest first, also
                                   those the database refused *)
}.

Inductive outcome (A : Type) : Type :=
| Ok (a : A) (w : World)
| Raise (e : Py.exn) (w : World).
Arguments Ok {A} a w.
Arguments Raise {A} e w.

Definition M (A : Type) : Type := World -> outcome A.

Definition ret {A} (a : A) : M A := fun w => Ok a w.

Definition bind {A B} (c : M A) (k : A -> M B) : M B :=
  fun w =>
    match c w with
    | Ok a w' => k a w'
    | Raise e w' => Raise e w'
    end.

Definition lift {A} (r : Py.exn + A) : M A :=
  fun w =>
    match r with
    | inr a => Ok a w
    | inl e => Raise e w
    end.

Notation "'let*' x ':=' c 'in' k" := (bind c (fun x => k))
  (at level 10, x name, c at level 200, k at level 200).

Fixpoint mapM {A B} (f : A -> M B) (l : list A) : M (list B) :=
  match l with
  | [] => ret []
  | x :: r =>
      let* y := f x in
      let* ys := mapM f r in
      ret (y :: ys)
  end.

(** Field updates of the world. *)
Definition with_uuid_calls (n : nat) (w : World) : World :=
  {| uuid_stream := uuid_stream w; uuid_calls := n;
     clock := clock w; clock_reads := clock_reads w;
     items_table := items_table w; max_variables := max_variables w;
     lookups := lookups w |}.

Definition with_clock_reads (n : nat) (w : World) : World :=
  {| uuid_stream := uuid_stream w; uuid_calls := uuid_calls w;
     clock := clock w; clock_reads := n;
     items_table := items_table w; max_variables := max_variables w;
     lookups := lookups w |}.

Definition with_lookups (l : list Lookup) (w : World) : World :=
  {| uuid_stream := uuid_stream w; uuid_calls := uuid_calls w;
     clock := clock w; clock_reads := clock_reads w;
     items_table := items_table w; max_variables := max_variables w;
     lookups := l |}.

(** [uuid.uuid4()] *)
Definition uuid4 : M UUID :=
  fun w =>
    Ok (uuid_stream w (uuid_calls w)) (with_uuid_calls (S (uuid_calls w)) w).

(** [time.perf_counter()] *)
Definition perf_counter : M float :=
  fun w =>
    Ok (clock w (clock_reads w)) (with_clock_reads (S (clock_reads w)) w).

(** The statement of an [id__in] lookup has one variable for each distinct
    value of the list; the database refuses a statement with more than
    [max_variables] of them.  A lookup over no value at all is answered
    without the database. *)
Definition too_many_variables (w : World) (uuids : list UUID) : bool :=
  let distinct := remove_dups uuids in
  match distinct with
  | [] => false
  | _ :: _ => max_variables w <? Z.of_nat (length distinct)
  end.

(** [list(Item.objects.filter(id__in=uuids))]: the rows whose [id] is one
    of [uuids], in the order the database gives them; [OperationalError]
    when the database refuses the statement.  The lookup is recorded
    either way. *)
Definition Item_objects_filter_id__in (uuids : list UUID) : M (list Item) :=
  fun w =>
    let w' := with_lookups (lookups w ++ [FilterIdIn uuids]) w in
    if too_many_variables w uuids
    then Raise Py.OperationalError w'
    else Ok (filter (fun it => id it ∈ uuids) (items_table w)) w'.

Definition index_html : string :=
  Text.lines [
    "";
    "    <!DOCTYPE html>";
    "    <html>";
    "    <head><title>Debug Toolbar Performance Issue Demo</title></head>";
    "    <body>";
    "        <h1>Debug Toolbar Performance Issue Demo</h1>";
    "        <p>This project demonstrates a performance issue in django-debug-toolbar";
    "           when SQL queries contain large IN clauses with many parameters.</p>";
    "";
    "        <h2>Test Links</h2>";
    "        <ul>";
    "            <li><a href=" +:+ Text.dq +:+ "/slow/?count=100" +:+ Text.dq
      +:+ ">100 UUIDs in IN clause</a> - Should be fast</li>";
    "            <li><a href=" +:+ Text.dq +:+ "/slow/?count=500" +:+ Text.dq
      +:+ ">500 UUIDs in IN clause</a> - Getting slower</li>";
    "            <li><a href=" +:+ Text.dq +:+ "/slow/?count=1000" +:+ Text.dq
      +:+ ">1,000 UUIDs in IN clause</a> - Noticeably slow</li>";
    "            <li><a href=" +:+ Text.dq +:+ "/slow/?count=3000" +:+ Text.dq
      +:+ ">3,000 UUIDs in IN clause</a> - Very slow</li>";
    "            <li><a href=" +:+ Text.dq +:+ "/slow/?count=5000" +:+ Text.dq
      +:+ ">5,000 UUIDs in IN clause</a> - Extremely slow (10+ seconds)</li>";
    "        </ul>";
    "";
    "        <h2>The Problem</h2>";
    "        <p>The SQL panel in debug-toolbar uses <code>sqlparse</code> to format SQL queries.";
    "           When a query contains thousands of parameters (like UUIDs in an IN clause),";
    "           the formatting becomes extremely slow - even though the actual database query is fast.</p>";
    "";
    "        <h2>Workaround</h2>";
    "        <pre>DEBUG_TOOLBAR_CONFIG = {";
    "    'PRETTIFY_SQL': False,  # Disables ALL SQL formatting";
    "}</pre>";
    "        <p>This disables formatting for ALL queries, not just the problematic ones.</p>";
    "";
    "        <h2>Proposed Fix</h2>";
    "        <p>Automatic graceful degradation: skip prettification for queries above a certain length threshold.</p>";
    "    </body>";
    "    </html>";
    "    "
  ].

(** Home page with links to test views. *)
Definition index (request : HttpRequest) : M HttpResponse :=
  let html := index_html in
  ret (HttpResponse_of html).

(** The f-string of [slow_query], with [query_time] already printed. *)
Definition slow_query_html (count : Z) (query_time : string) (found : nat)
  : string :=
  Text.lines [
    "";
    "    <!DOCTYPE html>";
    "    <html>";
    "    <head><title>Slow Query Demo</title></head>";
    "    <body>";
    "        <h1>Query with " +:+ Text.format_thousands count
      +:+ " UUIDs in IN clause</h1>";
    "        <p>Query execution time: <strong>" +:+ query_time
      +:+ "ms</strong> (database is fast!)</p>";
    "        <p>Results: " +:+ pretty found +:+ " items found</p>";
    "        <p><strong>Watch the debug toolbar</strong> - it will take much longer to render than the query took to execute.</p>";
    "        <p>The bottleneck is in <code>debug_toolbar/panels/sql/utils.py</code> where sqlparse formats the SQL.</p>";
    "        <p><a href=" +:+ Text.dq +:+ "/" +:+ Text.dq
      +:+ ">Back to home</a></p>";
    "    </body>";
    "    </html>";
    "    "
  ].

(** Demonstrates the performance issue by executing a query with many
    UUIDs in an IN clause. *)
Definition slow_query (request : HttpRequest) : M HttpResponse :=
  let* count :=
    lift (Py.int (QueryDict_get (GET request) (Py.str_of "count")
                   (Py.VInt 1000))) in
  let* uuids := mapM (fun _ => uuid4) (Py.range count) in
  let* start := perf_counter in
  let* items := Item_objects_filter_id__in uuids in
  let* stop := perf_counter in
  let html := slow_query_html count (format_ms stop start) (length items) in
  ret (HttpResponse_of html).

End WithClock.

Arguments Build_World {float}.
Arguments uuid_stream {float} w n : rename.
Arguments uuid_calls {float} w : rename.
Arguments clock {float} w n : rename.
Arguments clock_reads {float} w : rename.
Arguments items_table {float} w : rename.
Arguments max_variables {float} w : rename.
Arguments lookups {float} w : rename.
Arguments Ok {float A} a w.
Arguments Raise {float A} e w.
Arguments ret {float A} a w.
Arguments bind {float A B} c k w.
Arguments lift {float A} r w.
Arguments mapM {float A B} f l w.
Arguments with_uuid_calls {float} n w.
Arguments with_clock_reads {float} n w.
Arguments with_lookups {float} l w.
Arguments uuid4 {float} w.
Arguments perf_counter {float} w.
Arguments too_many_variables {float} w uuids.
Arguments Item_objects_filter_id__in {float} uuids w.
Arguments index {float} request w.
Arguments slow_query {float} format_ms request w.

End Views.

(** ** A sample world and sample requests *)

Module Sample.
Import Django Views.

(** Clock readings counted in hundredths of a millisecond. *)
Definition format_ms (stop start : Z) : string :=
  let d := stop - start in
  pretty (d / 100) +:+ "." +:+ pretty (d mod 100 / 10) +:+ pretty (d mod 10).

Definition item (i : UUID) (n : string) : Item :=
  {| id := i; name := Py.str_of n; created_at := 0 |}.

Definition world : World Z :=
  {| uuid_stream := fun n => N.of_nat (7 * n + 1);
     uuid_calls := 5;
     clock := fun n => 1000 + 137 * Z.of_nat n;
     clock_reads := 2;
     items_table := [item 36%N "first"; item 40%N "second"; item 7029%N "third"];
     max_variables := 32766;
     lookups := [] |}.

(** The same world with a database that takes two values at most. *)
Definition tight_world : World Z :=
  {| uuid_stream := uuid_stream world;
     uuid_calls := uuid_calls world;
     clock := clock world;
     clock_reads := clock_reads world;
     items_table := items_table world;
     max_variables := 2;
     lookups := lookups world |}.

Definition request_of (query : gmap Py.str (list Py.str)) : HttpRequest :=
  {| method := Py.str_of "GET"; path := Py.str_of "/slow/"; GET := query;
     POST := ∅; COOKIES := ∅; META := ∅; body := "" |}.

(** [GET /slow/] *)
Definition plain_request : HttpRequest := request_of ∅.

(** [GET /slow/?count=abc] *)
Definition word_request : HttpRequest :=
  request_of {[ Py.str_of "count" := [Py.str_of "abc"] ]}.

(** [GET /slow/?count=3] *)
Definition three_request : HttpRequest :=
  request_of {[ Py.str_of "count" := [Py.str_of "3"] ]}.

End Sample.

(** ** The URL configuration *)

Module Urls.

(** What a pattern of [config/urls.py] leads to: one of the two views, or
    the URL configuration of the admin site or of the debug toolbar, which
    are no part of these files. *)
Inductive Target : Type :=
| ViewIndex
| ViewSlowQuery
| AdminSiteUrls
| DebugToolbarUrls.

Record URLPattern : Type := {
  route : Py.str;
  is_endpoint : bool;      (* a view: the route must match to the end *)
  target : Target;
  name : option Py.str
}.

(** [path(route, view, name=name)] *)
Definition path_view (r : string) (v : Target) (n : string) : URLPattern :=
  {| route := Py.str_of r; is_endpoint := true; target := v;
     name := Some (Py.str_of n) |}.

(** [path(route, urls)] where [urls] is an included URL configuration. *)
Definition path_include (r : string) (urls : Target) : URLPattern :=
  {| route := Py.str_of r; is_endpoint := false; target := urls;
     name := None |}.

Definition urlpatterns : list URLPattern := [
  path_view "" ViewIndex "index";
  path_view "slow/" ViewSlowQuery "slow_query";
  path_include "admin/" AdminSiteUrls;
  path_include "__debug__/" DebugToolbarUrls
].

(** What is left of [s] after the prefix [p], if [s] starts with it. *)
Fixpoint removeprefix (p s : Py.str) : option Py.str :=
  match p, s with
  | [], _ => Some s
  | a :: p', b :: s' => if (a =? b)%N then removeprefix p' s' else None
  | _ :: _, [] => None
  end.

(** A route without converters matches a view when it is the whole path,
    and an included configuration when it is a prefix of the path; the
    result is the part of the path left over. *)
Definition pattern_match (pat : URLPattern) (p : Py.str) : option Py.str :=
  if is_endpoint pat then
    if bool_decide (route pat = p) then Some [] else None
  else removeprefix (route pat) p.

(** Resolution tries the patterns in order.  A view whose route matches
    decides.  An included configuration whose prefix matches is asked for
    the rest of the path: [included urls rest] tells whether it resolves
    it; when it does not, the patterns that follow are tried. *)
Fixpoint resolve (included : Target -> Py.str -> bool)
    (patterns : list URLPattern) (p : Py.str) : option (Target * Py.str) :=
  match patterns with
  | [] => None
  | pat :: rest =>
      match pattern_match pat p with
      | Some left_over =>
          if is_endpoint pat || included (target pat) left_over
          then Some (target pat, left_over)
          else resolve included rest p
      | None => resolve included rest p
      end
  end.

(** Resolution of a request path: the leading slash is taken off first. *)
Definition resolve_path_info (included : Target -> Py.str -> bool)
    (path_info : Py.str) : option (Target * Py.str) :=
  match removeprefix (Py.str_of "/") path_info with
  | Some p => resolve included urlpatterns p
  | None => None
  end.

End Urls.

(** ** Observations on outcomes, and more sample requests *)

Module Observe.
Import Django Views.

(** The world a run ends in, whether it returns or raises. *)
Definition world_of {float A : Type} (o : outcome float A) : World float :=
  match o with
  | Ok _ w => w
  | Raise _ w => w
  end.

(** The value [slow_query] reads from the request: the last one given for
    [count], if any. *)
Definition count_parameter (request : HttpRequest) : option Py.str :=
  match GET request !! Py.str_of "count" with
  | Some vs => last vs
  | None => None
  end.

(** [GET /slow/?count=-3] *)
Definition negative_request : HttpRequest :=
  Sample.request_of {[ Py.str_of "count" := [Py.str_of "-3"] ]}.

(** [POST /elsewhere?count=7&count=3] with a body and a cookie *)
Definition repeated_request : HttpRequest :=
  {| method := Py.str_of "POST"; path := Py.str_of "/elsewhere";
     GET := {[ Py.str_of "count" := [Py.str_of "7"; Py.str_of "3"] ]};
     POST := {[ Py.str_of "count" := [Py.str_of "9"] ]};
     COOKIES := {[ Py.str_of "sessionid" := Py.str_of "abc" ]};
     META := ∅; body := "count=9" |}.

(** [GET /slow/?count=n], the number written in plain decimal *)
Definition decimal_request (n : N) : HttpRequest :=
  Sample.request_of {[ Py.str_of "count" := [Py.str_of (pretty n)] ]}.

(** [GET /slow/?count=%D9%A3]: the Arabic-Indic digit three *)
Definition arabic_request : HttpRequest :=
  Sample.request_of {[ Py.str_of "count" := [[1635%N]] ]}.

(** [GET /slow/?count=%C2%B2]: the superscript two, which is no decimal
    digit *)
Definition superscript_request : HttpRequest :=
  Sample.request_of {[ Py.str_of "count" := [[178%N]] ]}.

(** An included URL configuration that resolves the empty path only. *)
Definition root_only (urls : Urls.Target) (rest : Py.str) : bool :=
  bool_decide (rest = []).

End Observe.

(** * Properties *)

(** ** The builtin [int] on strings *)

Example int_of_str_plain : Py.int_of_str (Py.str_of "1000") = Some 1000.
Proof. reflexivity. Qed.

Example int_of_str_padded :
  Py.int_of_str (Py.str_of "  -12_500 ") = Some (-12500).
Proof. reflexivity. Qed.

Example int_of_str_word : Py.int_of_str (Py.str_of "abc") = None.
Proof. reflexivity. Qed.

Example int_of_str_empty : Py.int_of_str [] = None.
Proof. reflexivity. Qed.

Example int_of_str_float : Py.int_of_str (Py.str_of "1.5") = None.
Proof. reflexivity. Qed.

Example int_of_str_double_underscore : Py.int_of_str (Py.str_of "1__0") = None.
Proof. reflexivity. Qed.

Example int_of_str_inner_space : Py.int_of_str (Py.str_of "+ 5") = None.
Proof. reflexivity. Qed.

(** Arabic-Indic three, full-width five, between an em space and an
    ideographic space. *)
Example int_of_str_unicode :
  Py.int_of_str [8195; 1635; 65301; 12288]%N = Some 35.
Proof. reflexivity. Qed.

(** The superscript two is a digit, but no decimal digit. *)
Example int_of_str_superscript : Py.int_of_str [178]%N = None.
Proof. reflexivity. Qed.

(** The unit separator is white space for [str.isspace], not for [int]. *)
Example int_of_str_separator : Py.int_of_str [31; 53]%N = None.
Proof. reflexivity. Qed.

Module IntLiteralFacts.
Import Py IntLiteral.

Create HintDb intlit.
#[local] Hint Constructors all_spaces digit_tail digit_groups sign_prefix : intlit.

Lemma digit_not_underscore c :
  is_digit c = true -> is_underscore c = false.
Proof.
  unfold is_digit, digit_value, is_underscore.
  destruct ((48 <=? to_ascii c)%N && (to_ascii c <=? 57)%N) eqn:E;
    [|discriminate].
  intros _. apply andb_true_iff in E as [E1 E2].
  apply N.leb_le in E1, E2. apply N.eqb_neq. lia.
Qed.

Lemma digit_not_space c : is_digit c = true -> is_space c = false.
Proof.
  unfold is_digit, digit_value, is_space.
  destruct ((48 <=? to_ascii c)%N && (to_ascii c <=? 57)%N) eqn:E;
    [|discriminate].
  intros _. apply andb_true_iff in E as [E1 E2].
  apply N.leb_le in E1, E2.
  apply orb_false_iff; split; [|apply N.eqb_neq; lia].
  apply andb_false_iff. right. apply N.leb_gt. lia.
Qed.

Lemma digit_not_sign c :
  is_digit c = true -> is_plus c = false /\ is_minus c = false.
Proof.
  unfold is_digit, digit_value, is_plus, is_minus.
  destruct ((48 <=? to_ascii c)%N && (to_ascii c <=? 57)%N) eqn:E;
    [|discriminate].
  intros _. apply andb_true_iff in E as [E1 E2].
  apply N.leb_le in E1, E2. split; apply N.eqb_neq; lia.
Qed.

Lemma space_not_digit c : is_space c = true -> digit_value c = None.
Proof.
  intros H. destruct (digit_value c) eqn:E; [|reflexivity].
  assert (D : is_digit c = true) by (unfold is_digit; rewrite E; reflexivity).
  apply digit_not_space in D. congruence.
Qed.

Lemma space_not_underscore c : is_space c = true -> is_underscore c = false.
Proof.
  unfold is_space, is_underscore. intros H.
  apply N.eqb_neq. intros E. rewrite E in H. discriminate.
Qed.

(** A code point from 127 on never becomes a sign or an underscore: what
    [int] reads as one is the ASCII character itself. *)
Lemma to_ascii_same (c k : N) :
  to_ascii c = k -> (k < 48)%N -> k <> 32%N -> c = k.
Proof.
  unfold to_ascii. destruct (c <? 127)%N; [intros <-; reflexivity|].
  destruct (Py_UNICODE_ISSPACE c); [intros <- _ H; contradiction|].
  destruct (Py_UNICODE_TODECIMAL c); intros <-; lia.
Qed.

Lemma is_plus_eq c : is_plus c = true -> c = 43%N.
Proof.
  unfold is_plus. intros H. apply N.eqb_eq in H.
  apply (to_ascii_same c 43 H); lia.
Qed.

Lemma is_minus_eq c : is_minus c = true -> c = 45%N.
Proof.
  unfold is_minus. intros H. apply N.eqb_eq in H.
  apply (to_ascii_same c 45 H); lia.
Qed.

Lemma skip_spaces_split s :
  exists l, s = l ++ skip_spaces s /\ all_spaces l.
Proof.
  induction s as [|c r (l & E & Hl)]; simpl.
  - exists []. auto with intlit.
  - destruct (is_space c) eqn:Hc.
    + exists (c :: l). split; [exact (f_equal (cons c) E)|auto with intlit].
    + exists []. auto with intlit.
Qed.

Lemma skip_spaces_empty s :
  is_empty (skip_spaces s) = true -> all_spaces s.
Proof.
  induction s as [|c r IH]; simpl; [auto with intlit|].
  destruct (is_space c) eqn:Hc; [auto with intlit|discriminate].
Qed.

Lemma take_sign_split s sg b :
  take_sign s = (sg, b) -> exists p, s = p ++ b /\ sign_prefix p.
Proof.
  destruct s as [|c r]; simpl.
  - intros [= _ <-]. exists []. auto with intlit.
  - destruct (is_plus c) eqn:E1; [|destruct (is_minus c) eqn:E2].
    + intros [= _ <-]. exists (str_of "+"). split; [|constructor].
      rewrite (is_plus_eq _ E1). reflexivity.
    + intros [= _ <-]. exists (str_of "-"). split; [|constructor].
      rewrite (is_minus_eq _ E2). reflexivity.
    + intros [= _ <-]. exists []. auto with intlit.
Qed.

(** What the digit loop has consumed when it stops without an underscore
    pending. *)
Lemma scan_digits_split s : forall prev acc n sc,
  scan_digits s prev acc n = Some sc ->
  sc_prev sc = false ->
  exists b,
    s = b ++ sc_rest sc /\
    (if prev then digit_groups b else digit_tail b) /\
    (b = [] -> sc_digits sc = n).
Proof.
  induction s as [|c r IH]; intros prev acc n sc; simpl.
  - intros [= <-]. simpl. intros ->. exists []. auto with intlit.
  - destruct (is_underscore c) eqn:Hu.
    + destruct prev; [discriminate|]. intros Hs Hp.
      destruct (IH _ _ _ _ Hs Hp) as (b & E & Hb & _).
      inversion Hb as [d r' Hd Hr']; subst b.
      exists (c :: d :: r').
      split; [exact (f_equal (cons c) E)|].
      split; [auto with intlit|discriminate].
    + destruct (digit_value c) eqn:Hd.
      * intros Hs Hp.
        destruct (IH _ _ _ _ Hs Hp) as (b & E & Hb & _). simpl in Hb.
        assert (Hc : is_digit c = true)
          by (unfold is_digit; rewrite Hd; reflexivity).
        exists (c :: b).
        split; [exact (f_equal (cons c) E)|]. split; [|discriminate].
        destruct prev; auto with intlit.
      * intros [= <-]. simpl. intros ->. exists []. auto with intlit.
Qed.

(** Whatever [int] accepts is a decimal integer string. *)
Lemma int_of_str_literal s n :
  int_of_str s = Some n -> decimal_integer_literal s.
Proof.
  unfold int_of_str.
  destruct (skip_spaces_split s) as (l & El & Hl).
  destruct (take_sign (skip_spaces s)) as [sg body] eqn:Es.
  destruct (take_sign_split _ _ _ Es) as (p & Ep & Hp).
  destruct (starts_with_underscore body) eqn:Hu; [discriminate|].
  destruct (scan_digits body false 0 0) as [sc|] eqn:Hsc; [|discriminate].
  destruct (sc_prev sc) eqn:Hprev; [discriminate|].
  destruct (sc_digits sc =? 0)%nat eqn:Hz; [discriminate|].
  destruct (int_max_str_digits <? sc_digits sc)%nat; [discriminate|].
  destruct (is_empty (skip_spaces (sc_rest sc))) eqn:Hr; [|discriminate].
  intros _.
  destruct (scan_digits_split _ _ _ _ _ Hsc Hprev) as (b & Eb & Hb & Hn).
  exists l, p, b, (sc_rest sc).
  split; [rewrite El at 1; rewrite Ep, Eb at 1; reflexivity|].
  split; [assumption|]. split; [assumption|].
  split; [|apply skip_spaces_empty; assumption].
  destruct b as [|c r].
  - apply Nat.eqb_neq in Hz. specialize (Hn eq_refl). congruence.
  - inversion Hb as [|c' r' Hc Hr'|u c' r' Hus Hc Hr']; subst.
    + auto with intlit.
    + simpl in Hu. congruence.
Qed.

Lemma skip_spaces_all s : all_spaces s -> is_empty (skip_spaces s) = true.
Proof.
  induction 1 as [|c r Hc _ IH]; simpl; [reflexivity|]. rewrite Hc. exact IH.
Qed.

Lemma skip_spaces_app l t :
  all_spaces l -> skip_spaces (l ++ t) = skip_spaces t.
Proof.
  induction 1 as [|c r Hc _ IH]; simpl; [reflexivity|]. rewrite Hc. exact IH.
Qed.

(** On digits with single underscores followed by white space only, the
    digit loop reads the digits and stops at the white space. *)
Lemma scan_digits_tail b r :
  digit_tail b -> all_spaces r ->
  forall acc n, exists sc,
    scan_digits (b ++ r) false acc n = Some sc /\
    sc_prev sc = false /\ sc_rest sc = r /\
    (n <= sc_digits sc <= n + length b)%nat.
Proof.
  intros Hb Hr. induction Hb as [|c t Hc _ IH|u c t Hu Hc _ IH]; intros acc n.
  - simpl. destruct Hr as [|c r' Hc Hr'].
    + exists (Scanned acc n false []). simpl. repeat split; lia.
    + exists (Scanned acc n false (c :: r')). simpl.
      rewrite (space_not_underscore _ Hc), (space_not_digit _ Hc).
      simpl. repeat split; lia.
  - simpl. rewrite (digit_not_underscore _ Hc).
    unfold is_digit in Hc. destruct (digit_value c) as [d|]; [|discriminate].
    destruct (IH (acc * 10 + d) (S n)) as (sc & E & Hp & Hrest & Hn).
    exists sc. repeat split; try assumption; lia.
  - simpl. rewrite Hu, (digit_not_underscore _ Hc).
    unfold is_digit in Hc. destruct (digit_value c) as [d|]; [|discriminate].
    destruct (IH (acc * 10 + d) (S n)) as (sc & E & Hp & Hrest & Hn).
    exists sc. repeat split; try assumption; lia.
Qed.

(** [int] accepts every decimal integer string of at most
    [int_max_str_digits] characters. *)
Lemma literal_int_of_str s :
  decimal_integer_literal s ->
  (length s <= int_max_str_digits)%nat ->
  exists n, int_of_str s = Some n.
Proof.
  intros (l & sg & b & r & -> & Hl & Hsg & Hb & Hr) Hlen.
  destruct Hb as [c t Hc Ht].
  rewrite !length_app in Hlen. simpl in Hlen.
  destruct (digit_not_sign _ Hc) as [Hplus Hminus].
  pose proof (digit_not_underscore _ Hc) as Hus.
  pose proof (digit_not_space _ Hc) as Hsp.
  assert (Hd : exists d, digit_value c = Some d).
  { unfold is_digit in Hc. destruct (digit_value c) as [d|];
      [eauto|discriminate]. }
  destruct Hd as [d Hd].
  destruct (scan_digits_tail t r Ht Hr (0 * 10 + d) 1%nat)
    as (sc & E & Hp & Hrest & Hn).
  assert (Hscan : scan_digits ((c :: t) ++ r) false 0 0 = Some sc).
  { simpl. rewrite Hus, Hd. exact E. }
  assert (Hgo : forall sign,
    (if starts_with_underscore ((c :: t) ++ r) then None
     else match scan_digits ((c :: t) ++ r) false 0 0 with
          | None => None
          | Some sc =>
              if sc_prev sc then None
              else if (sc_digits sc =? 0)%nat then None
              else if (int_max_str_digits <? sc_digits sc)%nat then None
              else if is_empty (skip_spaces (sc_rest sc))
                   then Some (sign * sc_value sc)
                   else None
          end) = Some (sign * sc_value sc)).
  { intros sign. rewrite Hscan.
    change (starts_with_underscore ((c :: t) ++ r)) with (is_underscore c).
    rewrite Hus, Hp, Hrest, (skip_spaces_all _ Hr).
    destruct (sc_digits sc =? 0)%nat eqn:Hz; [apply Nat.eqb_eq in Hz; lia|].
    destruct (int_max_str_digits <? sc_digits sc)%nat eqn:Hm;
      [apply Nat.ltb_lt in Hm; lia|reflexivity]. }
  unfold int_of_str. rewrite (skip_spaces_app _ _ Hl).
  destruct Hsg.
  - change ([] ++ (c :: t) ++ r) with (c :: (t ++ r)).
    simpl skip_spaces. rewrite Hsp. simpl take_sign. rewrite Hplus, Hminus.
    eexists. apply (Hgo 1).
  - eexists. apply (Hgo 1).
  - eexists. apply (Hgo (-1)).
Qed.

End IntLiteralFacts.

Example abc_is_no_literal :
  ~ IntLiteral.decimal_integer_literal (Py.str_of "abc").
Proof.
  intros H. apply IntLiteralFacts.literal_int_of_str in H as [n Hn];
    [discriminate Hn|vm_compute; lia].
Qed.

(** ** Text helpers *)

Example format_thousands_1000 : Text.format_thousands 1000 = "1,000".
Proof. vm_compute. reflexivity. Qed.

Example format_thousands_big : Text.format_thousands 1234567 = "1,234,567".
Proof. vm_compute. reflexivity. Qed.

Example format_thousands_small : Text.format_thousands 999 = "999".
Proof. vm_compute. reflexivity. Qed.

Example format_thousands_neg : Text.format_thousands (-100000) = "-100,000".
Proof. vm_compute. reflexivity. Qed.

(** ** Plain decimal numbers are read back by [int] *)

Module DecimalFacts.
Import Py.

Lemma str_of_String (c : ascii) (s : string) :
  str_of (String c s) = N_of_ascii c :: str_of s.
Proof. reflexivity. Qed.

Lemma length_str_of (s : string) : length (str_of s) = String.length s.
Proof.
  induction s as [|c s IH]; [reflexivity|].
  rewrite str_of_String. simpl. rewrite IH. reflexivity.
Qed.

Lemma digit_value_pretty_char (d : N) :
  (d < 10)%N ->
  digit_value (N_of_ascii (pretty_N_char d)) = Some (Z.of_N d).
Proof.
  intros Hd.
  assert (H : d = 0%N \/ d = 1%N \/ d = 2%N \/ d = 3%N \/ d = 4%N \/
              d = 5%N \/ d = 6%N \/ d = 7%N \/ d = 8%N \/ d = 9%N) by lia.
  repeat (destruct H as [-> | H]; [reflexivity|]). subst d. reflexivity.
Qed.

(** The digits of [x], most significant first, in front of [s]: the digit
    loop reads them all and goes on with [s]. *)
Lemma scan_digits_pretty_go (x : N) :
  exists k : nat,
    ((0 < x)%N -> (1 <= k)%nat) /\
    forall s,
      String.length (pretty_N_go x s) = (k + String.length s)%nat /\
      ((0 < x)%N ->
       exists c r, str_of (pretty_N_go x s) = c :: r /\ is_digit c = true) /\
      forall acc n,
        scan_digits (str_of (pretty_N_go x s)) false acc n =
        scan_digits (str_of s) false (acc * 10 ^ Z.of_nat k + Z.of_N x) (n + k).
Proof.
  induction (N.lt_wf_0 x) as [x _ IH].
  destruct (decide (0 < x)%N) as [Hpos|Hzero].
  - assert (Hlt : (x `div` 10 < x)%N) by (apply N.div_lt; lia).
    destruct (IH _ Hlt) as (k & Hk & Hgo).
    assert (Hd : (x `mod` 10 < 10)%N) by (apply N.mod_lt; lia).
    pose proof (digit_value_pretty_char _ Hd) as Hdv.
    assert (Hdig : is_digit (N_of_ascii (pretty_N_char (x `mod` 10))) = true)
      by (unfold is_digit; rewrite Hdv; reflexivity).
    exists (S k). split; [lia|]. intros s.
    rewrite (pretty_N_go_step x s Hpos).
    destruct (Hgo (String (pretty_N_char (x `mod` 10)) s))
      as (Hlen & Hfirst & Hscan).
    split; [rewrite Hlen; simpl; lia|]. split.
    + intros _. destruct (decide (0 < x `div` 10)%N) as [Hq|Hq].
      * exact (Hfirst Hq).
      * assert (Hz : (x `div` 10)%N = 0%N)
          by (destruct (x `div` 10)%N; [reflexivity|lia]).
        rewrite Hz, pretty_N_go_0, str_of_String. eauto.
    + intros acc n. rewrite Hscan, str_of_String. cbn [scan_digits].
      rewrite (IntLiteralFacts.digit_not_underscore _ Hdig), Hdv.
      f_equal; [|lia].
      rewrite Nat2Z.inj_succ, Z.pow_succ_r by lia.
      rewrite (N.div_mod x 10) at 3 by lia.
      rewrite N2Z.inj_add, N2Z.inj_mul. change (Z.of_N 10) with 10. ring.
  - assert (x = 0%N) by lia. subst x. exists 0%nat. split; [lia|].
    intros s. rewrite pretty_N_go_0. split; [reflexivity|].
    split; [lia|]. intros acc n. f_equal; [|lia].
    change (10 ^ Z.of_nat 0) with 1. change (Z.of_N 0) with 0. ring.
Qed.

(** What [int] makes of a string that starts with a digit, from what the
    digit loop makes of it. *)
Lemma int_of_str_digit_first (c : N) (r : str) (sc : scanned) :
  is_digit c = true ->
  scan_digits (c :: r) false 0 0 = Some sc ->
  sc_prev sc = false ->
  (1 <= sc_digits sc <= int_max_str_digits)%nat ->
  is_empty (skip_spaces (sc_rest sc)) = true ->
  int_of_str (c :: r) = Some (sc_value sc).
Proof.
  intros Hc Hscan Hprev Hn Hrest. unfold int_of_str.
  cbn [skip_spaces]. rewrite (IntLiteralFacts.digit_not_space _ Hc).
  cbn [take_sign].
  destruct (IntLiteralFacts.digit_not_sign _ Hc) as [-> ->].
  cbn [starts_with_underscore].
  rewrite (IntLiteralFacts.digit_not_underscore _ Hc), Hscan, Hprev, Hrest.
  destruct (sc_digits sc =? 0)%nat eqn:Hz; [apply Nat.eqb_eq in Hz; lia|].
  destruct (int_max_str_digits <? sc_digits sc)%nat eqn:Hm;
    [apply Nat.ltb_lt in Hm; lia|].
  f_equal. lia.
Qed.

(** Printing a natural number in decimal and reading it with [int] gives
    the number back, as long as it has no more than [int_max_str_digits]
    digits. *)
Lemma int_of_str_pretty (x : N) :
  (String.length (pretty x) <= int_max_str_digits)%nat ->
  int_of_str (str_of (pretty x)) = Some (Z.of_N x).
Proof.
  unfold pretty, pretty_N. destruct (decide (x = 0%N)) as [->|Hx].
  - intros _. reflexivity.
  - intros Hlen.
    destruct (scan_digits_pretty_go x) as (k & Hk & Hgo).
    destruct (Hgo "") as (Hl & Hfirst & Hscan).
    destruct (Hfirst ltac:(lia)) as (c & r & E & Hc).
    rewrite Hl in Hlen. simpl in Hlen.
    specialize (Hscan 0 0%nat). rewrite E in Hscan |- *.
    simpl in Hscan.
    rewrite (int_of_str_digit_first c r
               (Scanned (0 * 10 ^ Z.of_nat k + Z.of_N x) (0 + k) false [])).
    + cbn [sc_value]. f_equal; lia.
    + assumption.
    + exact Hscan.
    + reflexivity.
    + cbn [sc_digits]. lia.
    + reflexivity.
Qed.

End DecimalFacts.

(** ** The views *)

Section ViewFacts.
Import Django Views Observe.

Variable float : Type.
Variable format_ms : float -> float -> string.
Implicit Types (w : World float) (request : HttpRequest).

Lemma with_uuid_calls_same w : with_uuid_calls (uuid_calls w) w = w.
Proof. destruct w; reflexivity. Qed.

(** A comprehension that calls [uuid.uuid4()] once per element takes the
    next values of the stream, in order. *)
Lemma mapM_uuid4 {A} (l : list A) : forall w,
  mapM (fun _ => uuid4) l w =
  Ok (map (uuid_stream w) (seq (uuid_calls w) (length l)))
     (with_uuid_calls (uuid_calls w + length l) w).
Proof.
  induction l as [|x l IH]; intros w.
  - cbn [mapM length seq map]. unfold ret.
    rewrite Nat.add_0_r, with_uuid_calls_same. reflexivity.
  - cbn [mapM length seq map]. unfold bind at 1. unfold uuid4 at 1.
    unfold bind at 1. rewrite IH. unfold ret.
    cbn [uuid_calls uuid_stream with_uuid_calls].
    f_equal. unfold with_uuid_calls. cbn. f_equal. lia.
Qed.

Lemma length_range (n : Z) : length (Py.range n) = Z.to_nat n.
Proof. unfold Py.range. rewrite length_map, length_seq. reflexivity. Qed.

Lemma length_remove_dups_le (l : list UUID) :
  (length (remove_dups l) <= length l)%nat.
Proof.
  induction l as [|x l IH]; simpl; [lia|].
  destruct (decide_rel elem_of x l); simpl; lia.
Qed.

Lemma length_filter_in_nil (l : list Item) :
  length (filter (fun it => id it ∈ []) l) = 0%nat.
Proof.
  induction l as [|it l IH]; [reflexivity|].
  rewrite filter_cons. destruct (decide (id it ∈ [])) as [Hin|_]; [|exact IH].
  inversion Hin.
Qed.

(** The database takes every list that is no longer than its bound. *)
Lemma too_many_variables_le w (uuids : list UUID) :
  Z.of_nat (length uuids) <= max_variables w ->
  too_many_variables w uuids = false.
Proof.
  intros H. unfold too_many_variables.
  pose proof (length_remove_dups_le uuids) as Hle.
  destruct (remove_dups uuids) as [|u d] eqn:E; [reflexivity|].
  apply Z.ltb_ge. lia.
Qed.

Lemma too_many_variables_count w (n : Z) :
  n <= max_variables w ->
  too_many_variables w
    (map (uuid_stream w) (seq (uuid_calls w) (Z.to_nat n))) = false.
Proof.
  intros H. destruct (decide (n <= 0)) as [Hn|Hn].
  - replace (Z.to_nat n) with 0%nat by lia. reflexivity.
  - apply too_many_variables_le. rewrite length_map, length_seq. lia.
Qed.

(** The world after the draws and the first reading of the clock, with
    the lookup recorded. *)
Lemma slow_query_steps request w (count : Z) :
  Py.int (QueryDict_get (GET request) (Py.str_of "count") (Py.VInt 1000))
    = inr count ->
  let uuids := map (uuid_stream w) (seq (uuid_calls w) (Z.to_nat count)) in
  let found := filter (fun it => id it ∈ uuids) (items_table w) in
  let looked :=
    with_lookups (lookups w ++ [FilterIdIn uuids])
      (with_clock_reads (S (clock_reads w))
         (with_uuid_calls (uuid_calls w + Z.to_nat count) w)) in
  slow_query format_ms request w =
  if too_many_variables w uuids
  then Raise Py.OperationalError looked
  else Ok (HttpResponse_of
             (slow_query_html count
                (format_ms (clock w (S (clock_reads w)))
                           (clock w (clock_reads w)))
                (length found)))
          (with_clock_reads (S (S (clock_reads w))) looked).
Proof.
  intros Hint uuids found looked. unfold slow_query.
  unfold bind at 1. rewrite Hint. unfold lift.
  unfold bind at 1. rewrite mapM_uuid4, length_range.
  unfold bind at 1. unfold perf_counter at 1.
  unfold bind at 1. unfold Item_objects_filter_id__in.
  change (too_many_variables
            (with_clock_reads
               (S (clock_reads (with_uuid_calls
                                  (uuid_calls w + Z.to_nat count) w)))
               (with_uuid_calls (uuid_calls w + Z.to_nat count) w))
            (map (uuid_stream w) (seq (uuid_calls w) (Z.to_nat count))))
    with (too_many_variables w uuids).
  destruct (too_many_variables w uuids); reflexivity.
Qed.

(** The run of [slow_query] once [count] is known and the database takes
    the lookup. *)
Lemma slow_query_counted request w (count : Z) :
  Py.int (QueryDict_get (GET request) (Py.str_of "count") (Py.VInt 1000))
    = inr count ->
  let uuids := map (uuid_stream w) (seq (uuid_calls w) (Z.to_nat count)) in
  let found := filter (fun it => id it ∈ uuids) (items_table w) in
  too_many_variables w uuids = false ->
  slow_query format_ms request w =
  Ok (HttpResponse_of
        (slow_query_html count
           (format_ms (clock w (S (clock_reads w))) (clock w (clock_reads w)))
           (length found)))
     (with_clock_reads (S (S (clock_reads w)))
        (with_lookups (lookups w ++ [FilterIdIn uuids])
           (with_uuid_calls (uuid_calls w + Z.to_nat count) w))).
Proof.
  intros Hint uuids found Hfit.
  rewrite (slow_query_steps request w count Hint).
  fold uuids. rewrite Hfit. reflexivity.
Qed.

(** The run of [slow_query] when the database refuses the lookup. *)
Lemma slow_query_overflow request w (count : Z) :
  Py.int (QueryDict_get (GET request) (Py.str_of "count") (Py.VInt 1000))
    = inr count ->
  let uuids := map (uuid_stream w) (seq (uuid_calls w) (Z.to_nat count)) in
  too_many_variables w uuids = true ->
  slow_query format_ms request w =
  Raise Py.OperationalError
    (with_lookups (lookups w ++ [FilterIdIn uuids])
       (with_clock_reads (S (clock_reads w))
          (with_uuid_calls (uuid_calls w + Z.to_nat count) w))).
Proof.
  intros Hint uuids Hfit.
  rewrite (slow_query_steps request w count Hint).
  fold uuids. rewrite Hfit. reflexivity.
Qed.

(** When [int] raises, so does the view, before anything else is done. *)
Lemma slow_query_refused request w (e : Py.exn) :
  Py.int (QueryDict_get (GET request) (Py.str_of "count") (Py.VInt 1000))
    = inl e ->
  slow_query format_ms request w = Raise e w.
Proof.
  intros Hint. unfold slow_query. unfold bind at 1. rewrite Hint. reflexivity.
Qed.

Lemma int_of_count_parameter request (s : Py.str) :
  count_parameter request = Some s ->
  Py.int (QueryDict_get (GET request) (Py.str_of "count") (Py.VInt 1000)) =
  Py.int (Py.VStr s).
Proof.
  unfold count_parameter, QueryDict_get.
  destruct (GET request !! Py.str_of "count") as [vs|]; [|discriminate].
  intros ->. reflexivity.
Qed.

(** [int] raises nothing but [ValueError]. *)
Lemma int_raises_ValueError (v : Py.value) (e : Py.exn) :
  Py.int v = inl e -> e = Py.ValueError.
Proof.
  destruct v as [s|n]; simpl; [|discriminate].
  destruct (Py.int_of_str s); [discriminate|]. intros [= <-]. reflexivity.
Qed.

(** The three ways a run can go. *)
Lemma slow_query_cases request w :
  (exists n : Z,
     Py.int (QueryDict_get (GET request) (Py.str_of "count") (Py.VInt 1000))
       = inr n /\
     let uuids := map (uuid_stream w) (seq (uuid_calls w) (Z.to_nat n)) in
     (too_many_variables w uuids = false /\
      slow_query format_ms request w =
      Ok (HttpResponse_of
            (slow_query_html n
               (format_ms (clock w (S (clock_reads w)))
                          (clock w (clock_reads w)))
               (length (filter (fun it => id it ∈ uuids) (items_table w)))))
         (with_clock_reads (S (S (clock_reads w)))
            (with_lookups (lookups w ++ [FilterIdIn uuids])
               (with_uuid_calls (uuid_calls w + Z.to_nat n) w)))) \/
     (too_many_variables w uuids = true /\
      slow_query format_ms request w =
      Raise Py.OperationalError
        (with_lookups (lookups w ++ [FilterIdIn uuids])
           (with_clock_reads (S (clock_reads w))
              (with_uuid_calls (uuid_calls w + Z.to_nat n) w))))) \/
  ((exists vs s,
      GET request !! Py.str_of "count" = Some vs /\ last vs = Some s /\
      Py.int_of_str s = None) /\
   slow_query format_ms request w = Raise Py.ValueError w).
Proof.
  destruct (Py.int (QueryDict_get (GET request) (Py.str_of "count")
                      (Py.VInt 1000))) as [e|n] eqn:Hint.
  - right. split.
    + unfold QueryDict_get in Hint.
      destruct (GET request !! Py.str_of "count") as [vs|] eqn:Hget;
        [|discriminate].
      destruct (last vs) as [s|] eqn:Hlast; [|discriminate].
      exists vs, s. split; [reflexivity|]. split; [exact Hlast|].
      unfold Py.int in Hint.
      destruct (Py.int_of_str s); [discriminate|reflexivity].
    + rewrite <- (int_raises_ValueError _ _ Hint).
      exact (slow_query_refused request w e Hint).
  - left. exists n. split; [reflexivity|]. cbv zeta.
    destruct (too_many_variables w
                (map (uuid_stream w) (seq (uuid_calls w) (Z.to_nat n))))
      eqn:Hfit.
    + right. split; [reflexivity|].
      exact (slow_query_overflow request w n Hint Hfit).
    + left. split; [reflexivity|].
      exact (slow_query_counted request w n Hint Hfit).
Qed.

(** C8: a request to [slow_query] whose query string has no [count]
    parameter is served with the default count of 1000: the view calls
    [uuid.uuid4()] exactly 1000 times, taking the next 1000 values of the
    stream, and evaluates one lookup, [id__in] over exactly that list.
    When the database takes the lookup, the view answers, and the items it
    reports are the rows whose [id] is in the list; when the database
    refuses it, the view raises [OperationalError]. *)
Theorem slow_query_default_count request w :
  GET request !! Py.str_of "count" = None ->
  let uuids := map (uuid_stream w) (seq (uuid_calls w) 1000) in
  let found := filter (fun it => id it ∈ uuids) (items_table w) in
  let w' := world_of (slow_query format_ms request w) in
  length uuids = 1000%nat /\
  uuid_calls w' = (uuid_calls w + 1000)%nat /\
  lookups w' = lookups w ++ [FilterIdIn uuids] /\
  (too_many_variables w uuids = false ->
   exists resp,
     slow_query format_ms request w = Ok resp w' /\
     content resp =
       slow_query_html 1000
         (format_ms (clock w (S (clock_reads w))) (clock w (clock_reads w)))
         (length found)) /\
  (too_many_variables w uuids = true ->
   slow_query format_ms request w = Raise Py.OperationalError w').
Proof.
  intros Hget uuids found.
  assert (Hint : Py.int (QueryDict_get (GET request) (Py.str_of "count")
                           (Py.VInt 1000)) = inr 1000).
  { unfold QueryDict_get. rewrite Hget. reflexivity. }
  pose proof (slow_query_steps request w 1000 Hint) as Hrun.
  change (Z.to_nat 1000) with 1000%nat in Hrun. cbv zeta in Hrun.
  fold uuids in Hrun. fold found in Hrun. rewrite Hrun.
  split; [unfold uuids; rewrite length_map, length_seq; reflexivity|].
  destruct (too_many_variables w uuids).
  - repeat split; try discriminate.
  - repeat split; try discriminate. intros _. eexists. split; reflexivity.
Qed.

(** C9: a request to [slow_query] whose [count] parameter is present but is
    not a decimal integer string makes the view raise [ValueError]: no
    response is returned, and nothing else has been done (no UUID drawn, no
    lookup evaluated, no clock reading). *)
Theorem slow_query_invalid_count request w (vs : list Py.str) (s : Py.str) :
  GET request !! Py.str_of "count" = Some vs ->
  last vs = Some s ->
  ~ IntLiteral.decimal_integer_literal s ->
  slow_query format_ms request w = Raise Py.ValueError w.
Proof.
  intros Hget Hlast Hbad. apply slow_query_refused.
  unfold QueryDict_get. rewrite Hget, Hlast. unfold Py.int.
  destruct (Py.int_of_str s) as [n|] eqn:Hparse; [|reflexivity].
  exfalso. apply Hbad. exact (IntLiteralFacts.int_of_str_literal s n Hparse).
Qed.

(** C10: for any two requests (and whatever the state of the world), the
    [index] view returns the same response, whose body is the fixed page
    [index_html]; it changes nothing. *)
Theorem index_ignores_request (r1 r2 : HttpRequest) w1 w2 :
  exists resp,
    index r1 w1 = Ok resp w1 /\
    index r2 w2 = Ok resp w2 /\
    content resp = index_html.
Proof.
  exists (HttpResponse_of index_html). repeat split.
Qed.

(** The three lines of the page that depend on the run. *)
Lemma slow_query_html_lines (count : Z) (query_time : string) (found : nat) :
  Text.has_line (slow_query_html count query_time found)
    ("        <h1>Query with " +:+ Text.format_thousands count
       +:+ " UUIDs in IN clause</h1>") /\
  Text.has_line (slow_query_html count query_time found)
    ("        <p>Query execution time: <strong>" +:+ query_time
       +:+ "ms</strong> (database is fast!)</p>") /\
  Text.has_line (slow_query_html count query_time found)
    ("        <p>Results: " +:+ pretty found +:+ " items found</p>").
Proof.
  unfold slow_query_html, Text.has_line. split; [|split].
  - eexists [_; _; _; _; _], _. reflexivity.
  - eexists [_; _; _; _; _; _], _. reflexivity.
  - eexists [_; _; _; _; _; _; _], _. reflexivity.
Qed.

(** X1: when the last value given for [count] is read by [int] as [n] and
    the database takes [n] values, the view answers with status 200 after
    exactly [max n 0] calls of [uuid.uuid4()], one lookup over the values
    drawn, and two readings of the clock; the page has a heading with [n],
    a line with the time between the two readings and a line with the
    number of rows found. *)
Theorem slow_query_explicit_count request w (s : Py.str) (n : Z) :
  count_parameter request = Some s ->
  Py.int_of_str s = Some n ->
  n <= max_variables w ->
  let uuids := map (uuid_stream w) (seq (uuid_calls w) (Z.to_nat n)) in
  let found := filter (fun it => id it ∈ uuids) (items_table w) in
  let query_time :=
    format_ms (clock w (S (clock_reads w))) (clock w (clock_reads w)) in
  exists resp w',
    slow_query format_ms request w = Ok resp w' /\
    uuid_calls w' = (uuid_calls w + Z.to_nat (Z.max n 0))%nat /\
    clock_reads w' = S (S (clock_reads w)) /\
    lookups w' = lookups w ++ [FilterIdIn uuids] /\
    status_code resp = 200 /\
    content resp = slow_query_html n query_time (length found) /\
    Text.has_line (content resp)
      ("        <h1>Query with " +:+ Text.format_thousands n
         +:+ " UUIDs in IN clause</h1>") /\
    Text.has_line (content resp)
      ("        <p>Query execution time: <strong>" +:+ query_time
         +:+ "ms</strong> (database is fast!)</p>") /\
    Text.has_line (content resp)
      ("        <p>Results: " +:+ pretty (length found)
         +:+ " items found</p>").
Proof.
  intros Hc Hs Hmax uuids found query_time.
  assert (Hint : Py.int (QueryDict_get (GET request) (Py.str_of "count")
                           (Py.VInt 1000)) = inr n).
  { rewrite (int_of_count_parameter _ _ Hc). unfold Py.int. rewrite Hs.
    reflexivity. }
  rewrite (slow_query_counted request w n Hint
             (too_many_variables_count w n Hmax)).
  eexists _, _. split; [reflexivity|].
  cbn [uuid_calls clock_reads lookups with_clock_reads with_lookups
       with_uuid_calls content status_code HttpResponse_of].
  replace (Z.to_nat (Z.max n 0)) with (Z.to_nat n) by lia.
  destruct (slow_query_html_lines n query_time (length found))
    as (H1 & H2 & H3).
  repeat split; assumption.
Qed.

(** X2: a count of zero or below draws no UUID at all: the lookup is over
    the empty list and the page reports 0 items, whatever the table
    holds. *)
Theorem slow_query_nonpositive_count request w (s : Py.str) (n : Z) :
  count_parameter request = Some s ->
  Py.int_of_str s = Some n ->
  n <= 0 ->
  exists resp w',
    slow_query format_ms request w = Ok resp w' /\
    uuid_calls w' = uuid_calls w /\
    lookups w' = lookups w ++ [FilterIdIn []] /\
    content resp =
      slow_query_html n
        (format_ms (clock w (S (clock_reads w))) (clock w (clock_reads w)))
        0.
Proof.
  intros Hc Hs Hn.
  assert (Hint : Py.int (QueryDict_get (GET request) (Py.str_of "count")
                           (Py.VInt 1000)) = inr n).
  { rewrite (int_of_count_parameter _ _ Hc). unfold Py.int. rewrite Hs.
    reflexivity. }
  pose proof (slow_query_steps request w n Hint) as Hrun.
  cbv zeta in Hrun. replace (Z.to_nat n) with 0%nat in Hrun by lia.
  cbn [seq map] in Hrun.
  change (too_many_variables w []) with false in Hrun. rewrite Hrun.
  eexists _, _. split; [reflexivity|].
  cbn [uuid_calls lookups with_clock_reads with_lookups with_uuid_calls].
  split; [lia|]. split; [reflexivity|].
  cbn [content HttpResponse_of]. f_equal. apply length_filter_in_nil.
Qed.

(** X3: the view reads nothing of the request but the last value given for
    [count]: two requests that agree on it get the same outcome, whatever
    their method, path, other parameters, cookies or body. *)
Theorem slow_query_depends_on_count_only (r1 r2 : HttpRequest) w :
  count_parameter r1 = count_parameter r2 ->
  slow_query format_ms r1 w = slow_query format_ms r2 w.
Proof.
  intros H. unfold slow_query.
  assert (E : QueryDict_get (GET r1) (Py.str_of "count") (Py.VInt 1000) =
              QueryDict_get (GET r2) (Py.str_of "count") (Py.VInt 1000)).
  { unfold count_parameter in H. unfold QueryDict_get.
    destruct (GET r1 !! Py.str_of "count") as [v1|],
             (GET r2 !! Py.str_of "count") as [v2|];
      first [rewrite H; reflexivity | rewrite <- H; reflexivity | reflexivity]. }
  rewrite E. reflexivity.
Qed.

(** X4: a [ValueError] from the view comes from [int] refusing the last
    value given for [count], before anything else is done: the world is
    what it was.  An [OperationalError] comes from the database refusing
    the lookup: by then the UUIDs have been drawn and the clock has been
    read once. *)
Theorem slow_query_raise_inv request w (e : Py.exn) w' :
  slow_query format_ms request w = Raise e w' ->
  match e with
  | Py.ValueError =>
      w' = w /\
      exists vs s,
        GET request !! Py.str_of "count" = Some vs /\ last vs = Some s /\
        Py.int_of_str s = None
  | Py.OperationalError =>
      exists n : Z,
        Py.int (QueryDict_get (GET request) (Py.str_of "count")
                  (Py.VInt 1000)) = inr n /\
        let uuids := map (uuid_stream w) (seq (uuid_calls w) (Z.to_nat n)) in
        too_many_variables w uuids = true /\
        uuid_calls w' = (uuid_calls w + Z.to_nat n)%nat /\
        clock_reads w' = S (clock_reads w) /\
        lookups w' = lookups w ++ [FilterIdIn uuids]
  end.
Proof.
  intros Hrun.
  destruct (slow_query_cases request w)
    as [(n & Hint & [[Hfit E] | [Hfit E]]) | [Hbad E]];
    rewrite E in Hrun.
  - discriminate.
  - injection Hrun as <- <-. exists n. split; [exact Hint|].
    cbv zeta. split; [exact Hfit|]. repeat split.
  - injection Hrun as <- <-. split; [reflexivity|exact Hbad].
Qed.

(** X5: the view only reads: whether it answers or raises, the table of
    items, the stream of UUIDs and the clock are what they were; the
    counters never go back, and the lookups made before are kept, in
    order. *)
Theorem slow_query_read_only request w :
  let w' := world_of (slow_query format_ms request w) in
  items_table w' = items_table w /\
  uuid_stream w' = uuid_stream w /\
  clock w' = clock w /\
  (uuid_calls w <= uuid_calls w')%nat /\
  (clock_reads w <= clock_reads w')%nat /\
  lookups w `prefix_of` lookups w'.
Proof.
  cbv zeta.
  destruct (slow_query_cases request w)
    as [(n & _ & [[_ ->] | [_ ->]]) | [_ ->]];
    cbn [world_of items_table uuid_stream clock uuid_calls clock_reads lookups
         with_clock_reads with_lookups with_uuid_calls].
  - repeat split; try lia. apply prefix_app_r. reflexivity.
  - repeat split; try lia. apply prefix_app_r. reflexivity.
  - repeat split; try lia. reflexivity.
Qed.

(** X6: when no two rows share an [id] (it is the primary key), the number
    of items the page reports is at most the number of UUIDs drawn, and at
    most the number of rows. *)
Theorem slow_query_found_bounded request w (resp : HttpResponse) w' :
  NoDup (map id (items_table w)) ->
  slow_query format_ms request w = Ok resp w' ->
  exists (n : Z) (found : nat),
    content resp =
      slow_query_html n
        (format_ms (clock w (S (clock_reads w))) (clock w (clock_reads w)))
        found /\
    (found <= uuid_calls w' - uuid_calls w)%nat /\
    (found <= length (items_table w))%nat.
Proof.
  intros Hkey Hrun.
  destruct (slow_query_cases request w)
    as [(n & _ & [[_ E] | [_ E]]) | [_ E]];
    rewrite E in Hrun; try discriminate.
  injection Hrun as <- <-.
  eexists n, _. split; [reflexivity|].
  cbn [uuid_calls with_clock_reads with_lookups with_uuid_calls].
  set (uuids := map (uuid_stream w) (seq (uuid_calls w) (Z.to_nat n))).
  set (found := filter (fun it => id it ∈ uuids) (items_table w)).
  split; [|apply length_filter].
  assert (Hlen : length uuids = Z.to_nat n)
    by (unfold uuids; rewrite length_map, length_seq; reflexivity).
  replace (uuid_calls w + Z.to_nat n - uuid_calls w)%nat
    with (length uuids) by lia.
  rewrite <- (length_map id found).
  apply submseteq_length, NoDup_submseteq.
  - apply (sublist_NoDup (id <$> found) (id <$> items_table w)); [exact Hkey|].
    apply (fmap_sublist id). apply sublist_filter.
  - intros u Hu. apply (list_elem_of_fmap_1 id) in Hu as (it & -> & Hit).
    apply list_elem_of_filter in Hit as [Hin _]. exact Hin.
Qed.


(** X8: a decimal integer string of at most [int_max_str_digits]
    characters as the value of [count] is read by [int] as some [n]: the
    view does not raise [ValueError], and it answers with status 200
    whenever the database takes [n] values. *)
Theorem slow_query_accepts_literal request w (s : Py.str) :
  count_parameter request = Some s ->
  IntLiteral.decimal_integer_literal s ->
  (length s <= Py.int_max_str_digits)%nat ->
  exists n : Z,
    Py.int_of_str s = Some n /\
    (forall w', slow_query format_ms request w <> Raise Py.ValueError w') /\
    (n <= max_variables w ->
     exists (resp : HttpResponse) w',
       slow_query format_ms request w = Ok resp w' /\ status_code resp = 200).
Proof.
  intros Hc Hlit Hlen.
  destruct (IntLiteralFacts.literal_int_of_str s Hlit Hlen) as [n Hn].
  assert (Hint : Py.int (QueryDict_get (GET request) (Py.str_of "count")
                           (Py.VInt 1000)) = inr n).
  { rewrite (int_of_count_parameter _ _ Hc). unfold Py.int. rewrite Hn.
    reflexivity. }
  exists n. split; [exact Hn|]. split.
  - intros w'. rewrite (slow_query_steps request w n Hint). cbv zeta.
    destruct (too_many_variables w _); discriminate.
  - intros Hmax.
    rewrite (slow_query_counted request w n Hint
               (too_many_variables_count w n Hmax)).
    eexists _, _. split; reflexivity.
Qed.

(** X9: a count written in plain decimal, with no more than
    [int_max_str_digits] digits and no larger than what the database
    takes, makes the view draw exactly that many UUIDs and look them
    up. *)
Theorem slow_query_decimal_count request w (n : N) :
  count_parameter request = Some (Py.str_of (pretty n)) ->
  (String.length (pretty n) <= Py.int_max_str_digits)%nat ->
  Z.of_N n <= max_variables w ->
  exists (resp : HttpResponse) w',
    slow_query format_ms request w = Ok resp w' /\
    uuid_calls w' = (uuid_calls w + N.to_nat n)%nat /\
    lookups w' =
      lookups w ++
      [FilterIdIn (map (uuid_stream w) (seq (uuid_calls w) (N.to_nat n)))].
Proof.
  intros Hc Hlen Hmax.
  pose proof (DecimalFacts.int_of_str_pretty n Hlen) as Hn.
  assert (Hint : Py.int (QueryDict_get (GET request) (Py.str_of "count")
                           (Py.VInt 1000)) = inr (Z.of_N n)).
  { rewrite (int_of_count_parameter _ _ Hc). unfold Py.int. rewrite Hn.
    reflexivity. }
  rewrite (slow_query_counted request w _ Hint
             (too_many_variables_count w _ Hmax)).
  replace (Z.to_nat (Z.of_N n)) with (N.to_nat n) by lia.
  eexists _, _. repeat split.
Qed.

End ViewFacts.

(** ** The URL configuration *)

Module UrlFacts.
Import Urls.

(** Taking a prefix off succeeds exactly on the strings that start with it,
    and gives what follows it. *)
Lemma removeprefix_Some (p s r : Py.str) :
  removeprefix p s = Some r <-> s = p ++ r.
Proof.
  revert s. induction p as [|a p IH]; intros s.
  - simpl. split; [intros [= ->]|intros ->]; reflexivity.
  - destruct s as [|b s]; simpl; [split; discriminate|].
    destruct (a =? b)%N eqn:E.
    + apply N.eqb_eq in E as ->. rewrite IH.
      split; [intros ->; reflexivity|intros [= ->]; reflexivity].
    + apply N.eqb_neq in E. split; [discriminate|].
      intros [= <- _]. contradiction.
Qed.

(** What a match says about the path. *)
Lemma pattern_match_Some (pat : URLPattern) (p r : Py.str) :
  pattern_match pat p = Some r ->
  if is_endpoint pat then p = route pat /\ r = [] else p = route pat ++ r.
Proof.
  unfold pattern_match. destruct (is_endpoint pat).
  - destruct (bool_decide (route pat = p)) eqn:E; [|discriminate].
    apply bool_decide_eq_true in E. intros [= <-]. auto.
  - apply removeprefix_Some.
Qed.

Lemma elem_of_urlpatterns (pat : URLPattern) :
  pat ∈ urlpatterns ->
  pat = path_view "" ViewIndex "index" \/
  pat = path_view "slow/" ViewSlowQuery "slow_query" \/
  pat = path_include "admin/" AdminSiteUrls \/
  pat = path_include "__debug__/" DebugToolbarUrls.
Proof.
  unfold urlpatterns. rewrite !elem_of_cons, elem_of_nil. tauto.
Qed.

(** What a successful resolution says about the request path. *)
Lemma resolve_path_info_Some (included : Target -> Py.str -> bool)
    (path_info : Py.str) (t : Target) (rest : Py.str) :
  resolve_path_info included path_info = Some (t, rest) ->
  (t = ViewIndex /\ path_info = Py.str_of "/") \/
  (t = ViewSlowQuery /\ path_info = Py.str_of "/slow/") \/
  (t = AdminSiteUrls /\ path_info = Py.str_of "/admin/" ++ rest /\
   included AdminSiteUrls rest = true) \/
  (t = DebugToolbarUrls /\ path_info = Py.str_of "/__debug__/" ++ rest /\
   included DebugToolbarUrls rest = true).
Proof.
  unfold resolve_path_info.
  destruct (removeprefix (Py.str_of "/") path_info) as [p|] eqn:E;
    [|discriminate].
  apply removeprefix_Some in E as ->.
  unfold urlpatterns. cbn [resolve].
  destruct (pattern_match (path_view "" ViewIndex "index") p) eqn:E1.
  { apply pattern_match_Some in E1 as [-> ->]. intros [= <- <-].
    left. split; reflexivity. }
  destruct (pattern_match (path_view "slow/" ViewSlowQuery "slow_query") p)
    eqn:E2.
  { apply pattern_match_Some in E2 as [-> ->]. intros [= <- <-].
    right; left. split; reflexivity. }
  destruct (pattern_match (path_include "admin/" AdminSiteUrls) p) as [r3|]
    eqn:E3.
  { apply pattern_match_Some in E3. cbn in E3. subst p.
    cbn [is_endpoint path_include target orb].
    destruct (included AdminSiteUrls r3) eqn:I3.
    - intros [= <- <-]. right; right; left.
      split; [reflexivity|]. split; [reflexivity|exact I3].
    - destruct (pattern_match (path_include "__debug__/" DebugToolbarUrls) _)
        as [r4|] eqn:E4; [|discriminate].
      apply pattern_match_Some in E4. cbn in E4. discriminate E4. }
  destruct (pattern_match (path_include "__debug__/" DebugToolbarUrls) p)
    as [r4|] eqn:E4; [|discriminate].
  apply pattern_match_Some in E4. cbn in E4. subst p.
  cbn [is_endpoint path_include target orb].
  destruct (included DebugToolbarUrls r4) eqn:I4; [|discriminate].
  intros [= <- <-]. right; right; right.
  split; [reflexivity|]. split; [reflexivity|exact I4].
Qed.

(** A path under [/admin/] or [/__debug__/] that the included URL
    configuration resolves is handed to it, with the prefix taken off. *)
Lemma resolve_path_info_included (included : Target -> Py.str -> bool)
    (rest : Py.str) :
  (included AdminSiteUrls rest = true ->
   resolve_path_info included (Py.str_of "/admin/" ++ rest)
     = Some (AdminSiteUrls, rest)) /\
  (included DebugToolbarUrls rest = true ->
   resolve_path_info included (Py.str_of "/__debug__/" ++ rest)
     = Some (DebugToolbarUrls, rest)).
Proof.
  split; intros H; vm_compute; vm_compute in H; rewrite H; reflexivity.
Qed.

End UrlFacts.

(** X10: no path is matched by two patterns of [urlpatterns], so the order
    of the patterns decides nothing. *)
Theorem urlpatterns_exclusive (p : Py.str) (a b : Urls.URLPattern) :
  a ∈ Urls.urlpatterns -> b ∈ Urls.urlpatterns ->
  is_Some (Urls.pattern_match a p) -> is_Some (Urls.pattern_match b p) ->
  a = b.
Proof.
  intros Ha Hb [ra Hma] [rb Hmb].
  apply UrlFacts.pattern_match_Some in Hma, Hmb.
  apply UrlFacts.elem_of_urlpatterns in Ha, Hb.
  destruct Ha as [-> | [-> | [-> | ->]]], Hb as [-> | [-> | [-> | ->]]];
    try reflexivity; exfalso; cbn in Hma, Hmb;
    repeat match goal with H : _ /\ _ |- _ => destruct H end;
    subst; discriminate.
Qed.

(** X11: of all request paths, [/] alone reaches [index] and [/slow/] alone
    reaches [slow_query]: [/slow], [/slow/x] or [slow/] do not, whatever
    the included URL configurations resolve. *)
Theorem resolve_path_info_views
    (included : Urls.Target -> Py.str -> bool) (path_info : Py.str) :
  ((exists rest,
      Urls.resolve_path_info included path_info = Some (Urls.ViewIndex, rest))
   <-> path_info = Py.str_of "/") /\
  ((exists rest,
      Urls.resolve_path_info included path_info
        = Some (Urls.ViewSlowQuery, rest))
   <-> path_info = Py.str_of "/slow/").
Proof.
  split; split.
  - intros [rest H].
    destruct (UrlFacts.resolve_path_info_Some _ _ _ _ H)
      as [[_ E] | [[E _] | [[E _] | [E _]]]];
      [exact E|discriminate E..].
  - intros ->. eexists. reflexivity.
  - intros [rest H].
    destruct (UrlFacts.resolve_path_info_Some _ _ _ _ H)
      as [[E _] | [[_ E] | [[E _] | [E _]]]];
      [discriminate E|exact E|discriminate E..].
  - intros ->. eexists. reflexivity.
Qed.

(** X12: a request path is not found exactly when it is neither [/] nor
    [/slow/], and either starts with neither [/admin/] nor [/__debug__/]
    or the included URL configuration does not resolve what follows the
    prefix. *)
Theorem resolve_path_info_not_found
    (included : Urls.Target -> Py.str -> bool) (path_info : Py.str) :
  Urls.resolve_path_info included path_info = None <->
  path_info <> Py.str_of "/" /\ path_info <> Py.str_of "/slow/" /\
  (forall rest, path_info = Py.str_of "/admin/" ++ rest ->
                included Urls.AdminSiteUrls rest = false) /\
  (forall rest, path_info = Py.str_of "/__debug__/" ++ rest ->
                included Urls.DebugToolbarUrls rest = false).
Proof.
  split.
  - intros H. repeat split.
    + intros ->. discriminate H.
    + intros ->. discriminate H.
    + intros rest ->.
      destruct (included Urls.AdminSiteUrls rest) eqn:I; [|reflexivity].
      rewrite (proj1 (UrlFacts.resolve_path_info_included included rest) I)
        in H. discriminate H.
    + intros rest ->.
      destruct (included Urls.DebugToolbarUrls rest) eqn:I; [|reflexivity].
      rewrite (proj2 (UrlFacts.resolve_path_info_included included rest) I)
        in H. discriminate H.
  - intros (H1 & H2 & H3 & H4).
    destruct (Urls.resolve_path_info included path_info) as [[t rest]|] eqn:E;
      [|reflexivity].
    destruct (UrlFacts.resolve_path_info_Some _ _ _ _ E)
      as [[_ H] | [[_ H] | [(_ & H & I) | (_ & H & I)]]].
    + contradiction.
    + contradiction.
    + rewrite (H3 rest H) in I. discriminate I.
    + rewrite (H4 rest H) in I. discriminate I.
Qed.

(** ** The properties above on the sample worlds *)

Lemma slow_query_default_count_witness :
  Django.GET Sample.plain_request !! Py.str_of "count" = None /\
  let uuids :=
    map (Views.uuid_stream Sample.world)
        (seq (Views.uuid_calls Sample.world) 1000) in
  let found :=
    filter (fun it => Django.id it ∈ uuids) (Views.items_table Sample.world) in
  let w' :=
    Observe.world_of
      (Views.slow_query Sample.format_ms Sample.plain_request Sample.world) in
  length uuids = 1000%nat /\
  Views.uuid_calls w' = (Views.uuid_calls Sample.world + 1000)%nat /\
  Views.lookups w' = Views.lookups Sample.world ++ [Django.FilterIdIn uuids] /\
  (Views.too_many_variables Sample.world uuids = false ->
   exists resp,
     Views.slow_query Sample.format_ms Sample.plain_request Sample.world
       = Views.Ok resp w' /\
     Django.content resp =
       Views.slow_query_html 1000
         (Sample.format_ms
            (Views.clock Sample.world (S (Views.clock_reads Sample.world)))
            (Views.clock Sample.world (Views.clock_reads Sample.world)))
         (length found)) /\
  (Views.too_many_variables Sample.world uuids = true ->
   Views.slow_query Sample.format_ms Sample.plain_request Sample.world
     = Views.Raise Py.OperationalError w').
Proof.
  split; [reflexivity|].
  apply (slow_query_default_count Z Sample.format_ms
           Sample.plain_request Sample.world).
  reflexivity.
Defined.

(** On the sample world the database takes the 1000 values, and the view
    answers. *)
Example slow_query_default_count_answers :
  exists resp w',
    Views.slow_query Sample.format_ms Sample.plain_request Sample.world
      = Views.Ok resp w' /\
    Django.status_code resp = 200 /\
    Views.uuid_calls w' = 1005%nat.
Proof. eexists _, _. vm_compute. repeat split. Qed.

Lemma slow_query_invalid_count_witness :
  Views.slow_query Sample.format_ms Sample.word_request Sample.world
    = Views.Raise Py.ValueError Sample.world.
Proof.
  apply (slow_query_invalid_count Z Sample.format_ms
           Sample.word_request Sample.world
           [Py.str_of "abc"] (Py.str_of "abc")).
  - reflexivity.
  - reflexivity.
  - exact abc_is_no_literal.
Defined.

(** [GET /slow/?count=3] on the sample world: three values of the stream
    are taken, one of the three rows is found, the clock is read twice. *)
Example slow_query_three :
  Views.slow_query Sample.format_ms Sample.three_request Sample.world =
  Views.Ok
    (Django.HttpResponse_of (Views.slow_query_html 3 "1.37" 1))
    (Views.with_clock_reads 4
       (Views.with_lookups [Django.FilterIdIn [36; 43; 50]%N]
          (Views.with_uuid_calls 8 Sample.world))).
Proof. vm_compute. reflexivity. Qed.

(** [count=%D9%A3], the Arabic-Indic digit three, is a count of 3. *)
Example slow_query_arabic_three :
  Views.slow_query Sample.format_ms Observe.arabic_request Sample.world =
  Views.slow_query Sample.format_ms Sample.three_request Sample.world.
Proof. vm_compute. reflexivity. Qed.

(** [count=%C2%B2], the superscript two, is refused. *)
Example slow_query_superscript_two :
  Views.slow_query Sample.format_ms Observe.superscript_request Sample.world =
  Views.Raise Py.ValueError Sample.world.
Proof. vm_compute. reflexivity. Qed.

(** With a database that takes two values at most, [count=3] ends in
    [OperationalError] after three draws and one reading of the clock. *)
Example slow_query_three_refused :
  Views.slow_query Sample.format_ms Sample.three_request Sample.tight_world =
  Views.Raise Py.OperationalError
    (Views.with_lookups [Django.FilterIdIn [36; 43; 50]%N]
       (Views.with_clock_reads 3
          (Views.with_uuid_calls 8 Sample.tight_world))).
Proof. vm_compute. reflexivity. Qed.

Lemma slow_query_explicit_count_witness :
  Observe.count_parameter Sample.three_request = Some (Py.str_of "3") /\
  Py.int_of_str (Py.str_of "3") = Some 3 /\
  3 <= Views.max_variables Sample.world /\
  let uuids :=
    map (Views.uuid_stream Sample.world)
        (seq (Views.uuid_calls Sample.world) (Z.to_nat 3)) in
  let found :=
    filter (fun it => Django.id it ∈ uuids) (Views.items_table Sample.world) in
  let query_time :=
    Sample.format_ms
      (Views.clock Sample.world (S (Views.clock_reads Sample.world)))
      (Views.clock Sample.world (Views.clock_reads Sample.world)) in
  exists resp w',
    Views.slow_query Sample.format_ms Sample.three_request Sample.world
      = Views.Ok resp w' /\
    Views.uuid_calls w'
      = (Views.uuid_calls Sample.world + Z.to_nat (Z.max 3 0))%nat /\
    Views.clock_reads w' = S (S (Views.clock_reads Sample.world)) /\
    Views.lookups w' =
      Views.lookups Sample.world ++ [Django.FilterIdIn uuids] /\
    Django.status_code resp = 200 /\
    Django.content resp =
      Views.slow_query_html 3 query_time (length found) /\
    Text.has_line (Django.content resp)
      ("        <h1>Query with " +:+ Text.format_thousands 3
         +:+ " UUIDs in IN clause</h1>") /\
    Text.has_line (Django.content resp)
      ("        <p>Query execution time: <strong>" +:+ query_time
         +:+ "ms</strong> (database is fast!)</p>") /\
    Text.has_line (Django.content resp)
      ("        <p>Results: " +:+ pretty (length found)
         +:+ " items found</p>").
Proof.
  split; [reflexivity|]. split; [reflexivity|].
  split; [vm_compute; discriminate|].
  apply (slow_query_explicit_count Z Sample.format_ms
           Sample.three_request Sample.world (Py.str_of "3") 3);
    [reflexivity|reflexivity|vm_compute; discriminate].
Defined.

Lemma slow_query_nonpositive_count_witness :
  Observe.count_parameter Observe.negative_request = Some (Py.str_of "-3") /\
  Py.int_of_str (Py.str_of "-3") = Some (-3) /\
  -3 <= 0 /\
  exists resp w',
    Views.slow_query Sample.format_ms Observe.negative_request Sample.world
      = Views.Ok resp w' /\
    Views.uuid_calls w' = Views.uuid_calls Sample.world /\
    Views.lookups w' = Views.lookups Sample.world ++ [Django.FilterIdIn []] /\
    Django.content resp =
      Views.slow_query_html (-3)
        (Sample.format_ms
           (Views.clock Sample.world (S (Views.clock_reads Sample.world)))
           (Views.clock Sample.world (Views.clock_reads Sample.world)))
        0.
Proof.
  split; [reflexivity|]. split; [reflexivity|]. split; [lia|].
  apply (slow_query_nonpositive_count Z Sample.format_ms
           Observe.negative_request Sample.world (Py.str_of "-3") (-3));
    [reflexivity|reflexivity|lia].
Defined.

Lemma slow_query_depends_on_count_only_witness :
  Observe.count_parameter Observe.repeated_request
    = Observe.count_parameter Sample.three_request /\
  Views.slow_query Sample.format_ms Observe.repeated_request Sample.world
    = Views.slow_query Sample.format_ms Sample.three_request Sample.world.
Proof.
  split; [reflexivity|].
  apply (slow_query_depends_on_count_only Z Sample.format_ms
           Observe.repeated_request Sample.three_request Sample.world).
  reflexivity.
Defined.

Lemma slow_query_raise_inv_witness :
  Views.slow_query Sample.format_ms Sample.three_request Sample.tight_world
    = Views.Raise Py.OperationalError
        (Views.with_lookups [Django.FilterIdIn [36; 43; 50]%N]
           (Views.with_clock_reads 3
              (Views.with_uuid_calls 8 Sample.tight_world))) /\
  exists n : Z,
    Py.int (Django.QueryDict_get (Django.GET Sample.three_request)
              (Py.str_of "count") (Py.VInt 1000)) = inr n /\
    let uuids :=
      map (Views.uuid_stream Sample.tight_world)
          (seq (Views.uuid_calls Sample.tight_world) (Z.to_nat n)) in
    Views.too_many_variables Sample.tight_world uuids = true /\
    Views.uuid_calls
      (Views.with_lookups [Django.FilterIdIn [36; 43; 50]%N]
         (Views.with_clock_reads 3
            (Views.with_uuid_calls 8 Sample.tight_world)))
      = (Views.uuid_calls Sample.tight_world + Z.to_nat n)%nat /\
    Views.clock_reads
      (Views.with_lookups [Django.FilterIdIn [36; 43; 50]%N]
         (Views.with_clock_reads 3
            (Views.with_uuid_calls 8 Sample.tight_world)))
      = S (Views.clock_reads Sample.tight_world) /\
    Views.lookups
      (Views.with_lookups [Django.FilterIdIn [36; 43; 50]%N]
         (Views.with_clock_reads 3
            (Views.with_uuid_calls 8 Sample.tight_world)))
      = Views.lookups Sample.tight_world ++ [Django.FilterIdIn uuids].
Proof.
  split; [vm_compute; reflexivity|].
  apply (slow_query_raise_inv Z Sample.format_ms Sample.three_request
           Sample.tight_world Py.OperationalError).
  vm_compute. reflexivity.
Defined.

(** The other way to raise: [count=abc] on the sample world. *)
Example slow_query_raise_inv_ValueError :
  Sample.world = Sample.world /\
  exists vs s,
    Django.GET Sample.word_request !! Py.str_of "count" = Some vs /\
    last vs = Some s /\ Py.int_of_str s = None.
Proof.
  split; [reflexivity|].
  exists [Py.str_of "abc"], (Py.str_of "abc"). repeat split.
Qed.

Lemma slow_query_found_bounded_witness :
  NoDup (map Django.id (Views.items_table Sample.world)) /\
  exists (n : Z) (found : nat),
    Django.content
      (Django.HttpResponse_of (Views.slow_query_html 3 "1.37" 1)) =
      Views.slow_query_html n
        (Sample.format_ms
           (Views.clock Sample.world (S (Views.clock_reads Sample.world)))
           (Views.clock Sample.world (Views.clock_reads Sample.world)))
        found /\
    (found <= Views.uuid_calls
                (Views.with_clock_reads 4
                   (Views.with_lookups [Django.FilterIdIn [36; 43; 50]%N]
                      (Views.with_uuid_calls 8 Sample.world)))
              - Views.uuid_calls Sample.world)%nat /\
    (found <= length (Views.items_table Sample.world))%nat.
Proof.
  assert (Hkey : NoDup (map Django.id (Views.items_table Sample.world))).
  { apply (@bool_decide_unpack _ (NoDup_dec _)). vm_compute. exact I. }
  split; [exact Hkey|].
  apply (slow_query_found_bounded Z Sample.format_ms Sample.three_request
           Sample.world _ _ Hkey).
  vm_compute. reflexivity.
Defined.


Lemma slow_query_accepts_literal_witness :
  Observe.count_parameter Observe.arabic_request = Some [1635%N] /\
  IntLiteral.decimal_integer_literal [1635%N] /\
  (length [1635%N] <= Py.int_max_str_digits)%nat /\
  exists n : Z,
    Py.int_of_str [1635%N] = Some n /\
    (forall w',
       Views.slow_query Sample.format_ms Observe.arabic_request Sample.world
         <> Views.Raise Py.ValueError w') /\
    (n <= Views.max_variables Sample.world ->
     exists (resp : Django.HttpResponse) w',
       Views.slow_query Sample.format_ms Observe.arabic_request Sample.world
         = Views.Ok resp w' /\
       Django.status_code resp = 200).
Proof.
  assert (Hlit : IntLiteral.decimal_integer_literal [1635%N]).
  { exists [], [], [1635%N], []. split; [reflexivity|].
    split; [constructor|]. split; [constructor|].
    split; [|constructor]. constructor; [reflexivity|constructor]. }
  assert (Hlen : (length [1635%N] <= Py.int_max_str_digits)%nat)
    by (vm_compute; lia).
  split; [reflexivity|]. split; [exact Hlit|]. split; [exact Hlen|].
  apply (slow_query_accepts_literal Z Sample.format_ms Observe.arabic_request
           Sample.world [1635%N]); [reflexivity|exact Hlit|exact Hlen].
Defined.

Lemma slow_query_decimal_count_witness :
  Observe.count_parameter (Observe.decimal_request 42)
    = Some (Py.str_of (pretty 42%N)) /\
  (String.length (pretty 42%N) <= Py.int_max_str_digits)%nat /\
  Z.of_N 42 <= Views.max_variables Sample.world /\
  exists (resp : Django.HttpResponse) w',
    Views.slow_query Sample.format_ms (Observe.decimal_request 42) Sample.world
      = Views.Ok resp w' /\
    Views.uuid_calls w' = (Views.uuid_calls Sample.world + N.to_nat 42)%nat /\
    Views.lookups w' =
      Views.lookups Sample.world ++
      [Django.FilterIdIn (map (Views.uuid_stream Sample.world)
                              (seq (Views.uuid_calls Sample.world) (N.to_nat 42)))].
Proof.
  assert (Hlen : (String.length (pretty 42%N) <= Py.int_max_str_digits)%nat)
    by (vm_compute; lia).
  assert (Hmax : Z.of_N 42 <= Views.max_variables Sample.world)
    by (vm_compute; discriminate).
  split; [reflexivity|]. split; [exact Hlen|]. split; [exact Hmax|].
  apply (slow_query_decimal_count Z Sample.format_ms
           (Observe.decimal_request 42) Sample.world 42%N);
    [reflexivity|exact Hlen|exact Hmax].
Defined.

Lemma urlpatterns_exclusive_witness :
  Urls.path_view "slow/" Urls.ViewSlowQuery "slow_query" ∈ Urls.urlpatterns /\
  is_Some (Urls.pattern_match
             (Urls.path_view "slow/" Urls.ViewSlowQuery "slow_query")
             (Py.str_of "slow/")) /\
  Urls.path_view "slow/" Urls.ViewSlowQuery "slow_query"
    = Urls.path_view "slow/" Urls.ViewSlowQuery "slow_query".
Proof.
  assert (Hin : Urls.path_view "slow/" Urls.ViewSlowQuery "slow_query"
                ∈ Urls.urlpatterns).
  { unfold Urls.urlpatterns. rewrite !elem_of_cons. tauto. }
  assert (Hm : is_Some (Urls.pattern_match
             (Urls.path_view "slow/" Urls.ViewSlowQuery "slow_query")
             (Py.str_of "slow/"))).
  { exists []. reflexivity. }
  split; [exact Hin|]. split; [exact Hm|].
  exact (urlpatterns_exclusive (Py.str_of "slow/") _ _ Hin Hin Hm Hm).
Defined.

(** [/__debug__/foo] is not found when the debug toolbar's configuration
    resolves the empty path only; [/__debug__/] then is. *)
Example resolve_debug_foo :
  Urls.resolve_path_info Observe.root_only (Py.str_of "/__debug__/foo") = None /\
  Urls.resolve_path_info Observe.root_only (Py.str_of "/__debug__/")
    = Some (Urls.DebugToolbarUrls, []).
Proof. split; reflexivity. Qed.
